(** * Verification of mcp-pihole: the Pi-hole v6 API client (src/src/index.ts)
      and the ASCII rendering helpers (src/src/ascii-viz.ts).

    Modelling choices.
    - A JavaScript string is a list of UTF-16 code units ([jstr]), as in JS:
      [length], [slice], [repeat] and [padEnd]-style padding work on code
      units.  Literals are written [js "..."], which decodes the UTF-8 bytes
      of a Rocq string literal into code points and then into UTF-16.
    - JavaScript numbers are modelled as exact rationals [Q] where the code
      divides, and as integers [Z] where the values are counts, durations or
      millisecond timestamps (the Pi-hole API sends integral values there).
      Binary floating-point rounding is not modelled.
    - [toLocaleString] is modelled for the en-US locale (',' every three
      digits), the default locale of the Node.js runtime. *)

From Stdlib Require Import String Ascii List ZArith QArith Qround Qminmax Lia Bool.
Import ListNotations.
Open Scope Z_scope.
Open Scope list_scope.

(* ------------------------------------------------------------------ *)
(** ** JavaScript strings *)

Definition jstr := list Z.

(** Decoding of the UTF-8 bytes of a Rocq literal into code points. *)
Fixpoint utf8_decode (l : list Z) : list Z :=
  match l with
  | [] => []
  | b :: rest =>
      if b <? 128 then b :: utf8_decode rest
      else if b <? 224 then
        match rest with
        | c :: rest' => ((b - 192) * 64 + (c - 128)) :: utf8_decode rest'
        | [] => [65533]
        end
      else if b <? 240 then
        match rest with
        | c :: d :: rest' =>
            ((b - 224) * 4096 + (c - 128) * 64 + (d - 128)) :: utf8_decode rest'
        | _ => [65533]
        end
      else
        match rest with
        | c :: d :: e :: rest' =>
            ((b - 240) * 262144 + (c - 128) * 4096 + (d - 128) * 64 + (e - 128))
              :: utf8_decode rest'
        | _ => [65533]
        end
  end.

(** Encoding of code points as UTF-16 code units (surrogate pairs above
    the Basic Multilingual Plane). *)
Definition utf16_of_cp (cp : Z) : list Z :=
  if cp <? 65536 then [cp]
  else [55296 + (cp - 65536) / 1024; 56320 + (cp - 65536) mod 1024].

Definition js (s : string) : jstr :=
  flat_map utf16_of_cp
    (utf8_decode (map (fun a => Z.of_nat (nat_of_ascii a)) (list_ascii_of_string s))).

Definition js_length (s : jstr) : Z := Z.of_nat (length s).

(** [str.repeat(n)]: a RangeError (here [None]) for a negative count. *)
Definition js_repeat (s : jstr) (n : Z) : option jstr :=
  if n <? 0 then None else Some (concat (repeat s (Z.to_nat n))).

(** [str.slice(0, e)]: a negative end counts from the end of the string. *)
Definition js_slice0 (s : jstr) (e : Z) : jstr :=
  if e <? 0 then firstn (Z.to_nat (js_length s + e)) s
  else firstn (Z.to_nat e) s.

(** The [||] of JavaScript on an optional value with a fallback. *)
Definition js_or {A} (truthy : A -> bool) (v : option A) (d : A) : A :=
  match v with
  | Some x => if truthy x then x else d
  | None => d
  end.

(* ------------------------------------------------------------------ *)
(** ** Number to string conversions *)

(** Decimal digits (least significant first) of a non-negative integer. *)
Fixpoint digits_rev (fuel : nat) (n : Z) : list Z :=
  match fuel with
  | O => []
  | S f => (48 + n mod 10) :: (if n <? 10 then [] else digits_rev f (n / 10))
  end.

Definition nat_digits (n : Z) : jstr :=
  rev (digits_rev (S (Z.to_nat (Z.log2 n))) n).

(** [Number.prototype.toString()] on an integral number. *)
Definition z_to_string (n : Z) : jstr :=
  if n <? 0 then js "-" ++ nat_digits (- n) else nat_digits n.

Definition q_pow10 (k : nat) : Q := inject_Z (10 ^ Z.of_nat k).

(** [Number.prototype.toFixed(k)]: the integer [n] nearest to [x * 10^k]
    (the larger one on a tie), written with [k] fraction digits; a negative
    number gets a leading '-'. *)
Definition to_fixed (x : Q) (k : nat) : jstr :=
  let neg := negb (Qle_bool 0 x) in
  let ax := if neg then Qopp x else x in
  let n := Qfloor (ax * q_pow10 k + (1 # 2))%Q in
  let d := nat_digits n in
  let d' := repeat 48 (k + 1 - length d) ++ d in
  let body :=
    match k with
    | O => d'
    | _ => firstn (length d' - k) d' ++ js "." ++ skipn (length d' - k) d'
    end in
  if neg then js "-" ++ body else body.

(** Grouping of reversed digits by three with ','. *)
Fixpoint group3_rev (l : list Z) : list Z :=
  match l with
  | a :: b :: c :: ((_ :: _) as rest) => a :: b :: c :: 44 :: group3_rev rest
  | _ => l
  end.

(** [Number.prototype.toLocaleString()] on an integer, en-US locale. *)
Definition to_locale_string (n : Z) : jstr :=
  let g := rev (group3_rev (rev (nat_digits (Z.abs n)))) in
  if n <? 0 then js "-" ++ g else g.

(* ------------------------------------------------------------------ *)
(** ** ascii-viz.ts *)

Module AsciiViz.

(** [formatNumber] *)
Definition formatNumber (num : Z) : jstr :=
  if num >=? 1000000 then to_fixed (num # 1000000) 1 ++ js "M"
  else if num >=? 10000 then to_fixed (num # 1000) 0 ++ js "K"
  else if num >=? 1000 then to_locale_string num
  else z_to_string num.

(** Option monad: [None] is a thrown RangeError. *)
Definition obind {A B} (m : option A) (f : A -> option B) : option B :=
  match m with Some x => f x | None => None end.
Notation "'let?' x ':=' m 'in' k" := (obind m (fun x => k))
  (at level 200, x name, m at level 200, k at level 200).

(** [str.repeat(n)] at a count the code keeps non-negative. *)
Definition rep (s : jstr) (n : Z) : jstr := concat (repeat s (Z.to_nat n)).

(** ANSI color codes [C] *)
Definition ESC : jstr := [27].
Definition RESET : jstr := ESC ++ js "[0m".
Definition BOLD : jstr := ESC ++ js "[1m".
Definition DIM : jstr := ESC ++ js "[2m".
Definition RED : jstr := ESC ++ js "[31m".
Definition GREEN : jstr := ESC ++ js "[32m".
Definition YELLOW : jstr := ESC ++ js "[33m".
Definition BLUE : jstr := ESC ++ js "[34m".
Definition MAGENTA : jstr := ESC ++ js "[35m".
Definition CYAN : jstr := ESC ++ js "[36m".
Definition WHITE : jstr := ESC ++ js "[37m".
Definition BRIGHT_RED : jstr := ESC ++ js "[91m".
Definition BRIGHT_GREEN : jstr := ESC ++ js "[92m".
Definition BRIGHT_YELLOW : jstr := ESC ++ js "[93m".
Definition BRIGHT_BLUE : jstr := ESC ++ js "[94m".
Definition BRIGHT_MAGENTA : jstr := ESC ++ js "[95m".
Definition BRIGHT_CYAN : jstr := ESC ++ js "[96m".

(** Box drawing characters [BOX] *)
Definition BOX_TL : jstr := js "╔".
Definition BOX_TR : jstr := js "╗".
Definition BOX_BL : jstr := js "╚".
Definition BOX_BR : jstr := js "╝".
Definition BOX_H : jstr := js "═".
Definition BOX_V : jstr := js "║".
Definition BOX_LT : jstr := js "╠".
Definition BOX_RT : jstr := js "╣".
Definition BOX_THIN : jstr := js "─".

Definition BAR_FULL : jstr := js "█".
Definition BAR_PARTIAL : list jstr :=
  [[]; js "▏"; js "▎"; js "▍"; js "▌"; js "▋"; js "▊"; js "▉"].

Inductive align := Left | Right.

(** [pad] *)
Definition pad (str : jstr) (width : Z) (al : align) : jstr :=
  if js_length str >=? width then js_slice0 str width
  else
    let padding := rep (js " ") (width - js_length str) in
    match al with Left => str ++ padding | Right => padding ++ str end.

(** [bar]: [None] when [BAR_FULL.repeat(fullBlocks)] or [' '.repeat(width)]
    is called with a negative count. *)
Definition bar (value max width : Z) : option jstr :=
  if max =? 0 then js_repeat (js " ") width
  else
    let ratio := Qmin (inject_Z value / inject_Z max) 1 in
    let fullBlocks := Qfloor (ratio * inject_Z width)%Q in
    let remainder := (ratio * inject_Z width - inject_Z fullBlocks)%Q in
    let partialIndex := Qfloor (remainder * 8)%Q in
    let? result0 := js_repeat BAR_FULL fullBlocks in
    let result :=
      if (partialIndex >? 0) && (js_length result0 <? width)
      then result0 ++ nth (Z.to_nat partialIndex) BAR_PARTIAL []
      else result0 in
    Some (pad result width Left).

(** [hline] *)
Definition hline (width : Z) (left right : jstr) : jstr :=
  left ++ rep BOX_H (width - 2) ++ right.

(** [row] *)
Definition row (content : jstr) (width : Z) : jstr :=
  BOX_V ++ js " " ++ pad content (width - 4) Left ++ js " " ++ BOX_V.

(** [colorBar] *)
Definition colorBar (value max width : Z) (color : jstr) : option jstr :=
  let? barStr := bar value max width in
  Some (color ++ barStr ++ RESET).

(** [numerator / denominator * 100] rendered with [toFixed(0)]; a zero
    denominator gives JavaScript's [Infinity], [-Infinity] or [NaN]. *)
Definition percent_fixed0 (num den : Z) : jstr :=
  if den =? 0 then
    (if num >? 0 then js "Infinity" else if num <? 0 then js "-Infinity" else js "NaN")
  else to_fixed (inject_Z num / inject_Z den * 100)%Q 0.

(** [Math.max(...xs)] on a non-empty list. *)
Definition list_max (xs : list Z) : Z :=
  match xs with [] => 0 | x :: r => fold_left Z.max r x end.

(** The loop bodies that may throw, mapped in order. *)
Fixpoint omap {A B} (f : A -> option B) (l : list A) : option (list B) :=
  match l with
  | [] => Some []
  | x :: r => let? y := f x in let? ys := omap f r in Some (y :: ys)
  end.

(** [lines.join(sep)] *)
Fixpoint join (sep : jstr) (l : list jstr) : jstr :=
  match l with
  | [] => []
  | [x] => x
  | x :: r => x ++ sep ++ join sep r
  end.

Record ClientEntry := { c_ip : jstr; c_name : option jstr; c_count : Z }.
Record DomainEntry := { d_domain : jstr; d_count : Z }.

(** The [stats] argument of [createDashboard]. *)
Record DashStats := {
  queries_total : Z;
  queries_blocked : Z;
  queries_percent_blocked : Q;
  queries_forwarded : Z;
  queries_cached : Z;
  queries_unique_domains : Z;
  clients_active : Z;
  clients_total : Z;
  gravity_domains_being_blocked : Z;
  gravity_last_update : Z;
  topClients : option (list ClientEntry);
  topBlocked : option (list DomainEntry);
  topPermitted : option (list DomainEntry)
}.

Definition W : Z := 78.

Definition vline (content : jstr) : jstr :=
  CYAN ++ BOX_V ++ RESET ++ content ++ CYAN ++ BOX_V ++ RESET.
Definition blank_line : jstr := vline (rep (js " ") (W - 2)).
Definition thin_line : jstr :=
  vline (js " " ++ DIM ++ rep BOX_THIN (W - 6) ++ RESET ++ js " ").
Definition top_line : jstr := CYAN ++ BOX_TL ++ rep BOX_H (W - 2) ++ BOX_TR ++ RESET.
Definition sep_line : jstr := CYAN ++ hline W BOX_LT BOX_RT ++ RESET.
Definition bottom_line : jstr := CYAN ++ BOX_BL ++ rep BOX_H (W - 2) ++ BOX_BR ++ RESET.
Definition section_title (t : jstr) (n : Z) : jstr :=
  vline (BOLD ++ YELLOW ++ t ++ RESET ++ rep (js " ") (W - n)).

Definition nonempty {A} (o : option (list A)) : option (list A) :=
  match o with Some (_ :: _ as l) => Some l | _ => None end.

Definition client_row (mx total : Z) (client : ClientEntry) : option jstr :=
  let label := pad (match c_name client with Some (_ :: _ as n) => n | _ => c_ip client end) 16 Left in
  let? barStr := colorBar (c_count client) mx 40 BRIGHT_BLUE in
  let count := formatNumber (c_count client) in
  let pct := percent_fixed0 (c_count client) total in
  Some (vline (js " " ++ label ++ js " " ++ barStr ++ js "  " ++ WHITE
    ++ pad count 8 Right ++ RESET ++ js " " ++ DIM ++ js "(" ++ pad pct 2 Right
    ++ js "%)" ++ RESET)).

Definition domain_row (mx : Z) (color : jstr) (d : DomainEntry) : option jstr :=
  let label := pad (d_domain d) 40 Left in
  let? barStr := colorBar (d_count d) mx 20 color in
  let count := formatNumber (d_count d) in
  Some (vline (js " " ++ label ++ js " " ++ barStr ++ js " " ++ WHITE
    ++ pad count 8 Right ++ RESET)).

Definition dashboard_lines (stats : DashStats) : option (list jstr) :=
  let totalQ := formatNumber (queries_total stats) in
  let blockedQ := formatNumber (queries_blocked stats) in
  let domainsBlocked := formatNumber (gravity_domains_being_blocked stats) in
  let blockRate := to_fixed (queries_percent_blocked stats) 1 ++ js "%" in
  let head :=
    [top_line;
     vline (BOLD ++ BRIGHT_GREEN ++ js "                         🛡️  PI-HOLE DASHBOARD                          " ++ RESET);
     sep_line;
     blank_line;
     section_title (js " 📊 SUMMARY") 14;
     thin_line;
     vline (js " Total Queries:      " ++ BRIGHT_CYAN ++ pad totalQ 12 Left ++ RESET
            ++ js "    Domains Blocked:    " ++ MAGENTA ++ pad domainsBlocked 12 Left ++ RESET);
     vline (js " Blocked:            " ++ BRIGHT_RED ++ pad blockedQ 12 Left ++ RESET
            ++ js "    Active Clients:     " ++ GREEN ++ pad (z_to_string (clients_active stats)) 12 Left ++ RESET);
     vline (js " Block Rate:         " ++ BRIGHT_RED ++ pad blockRate 12 Left ++ RESET
            ++ js "    Total Clients:      " ++ DIM ++ pad (z_to_string (clients_total stats)) 12 Left ++ RESET);
     blank_line] in
  let? clients :=
    match nonempty (topClients stats) with
    | Some l =>
        let mx := list_max (map c_count l) in
        let? rows := omap (client_row mx (queries_total stats)) (firstn 6 l) in
        Some ([sep_line; section_title (js " 🔝 TOP CLIENTS") 18; thin_line] ++ rows ++ [blank_line])
    | None => Some []
    end in
  let? blocked :=
    match nonempty (topBlocked stats) with
    | Some l =>
        let mx := list_max (map d_count l) in
        let? rows := omap (domain_row mx BRIGHT_RED) (firstn 6 l) in
        Some ([sep_line; section_title (js " 🚫 TOP BLOCKED DOMAINS") 26; thin_line] ++ rows ++ [blank_line])
    | None => Some []
    end in
  let? permitted :=
    match nonempty (topPermitted stats) with
    | Some l =>
        let mx := list_max (map d_count l) in
        let? rows := omap (domain_row mx BRIGHT_GREEN) (firstn 6 l) in
        Some ([sep_line; section_title (js " 🌐 TOP PERMITTED DOMAINS") 28; thin_line] ++ rows ++ [blank_line])
    | None => Some []
    end in
  Some (head ++ clients ++ blocked ++ permitted ++ [bottom_line]).

(** [createDashboard] *)
Definition createDashboard (stats : DashStats) : option jstr :=
  let? lines := dashboard_lines stats in Some (join [10] lines).

Record ChartItem := { i_label : jstr; i_value : Z }.

Definition chart_row (mx : Z) (total : option Z) (barColor : jstr) (item : ChartItem)
  : option jstr :=
  let label := pad (i_label item) 30 Left in
  let? barStr := colorBar (i_value item) mx 30 barColor in
  let count := formatNumber (i_value item) in
  let pctStr :=
    match total with
    | Some t => if t =? 0 then []
                else DIM ++ js " (" ++ percent_fixed0 (i_value item) t ++ js "%)" ++ RESET
    | None => []
    end in
  Some (vline (js " " ++ label ++ js " " ++ barStr ++ js " " ++ WHITE
    ++ pad count 8 Right ++ RESET ++ pctStr)).

(** [createBarChart] *)
Definition createBarChart (title : jstr) (items : list ChartItem) (total : option Z)
  (barColor : jstr) : option jstr :=
  let? titlePad := js_repeat (js " ") (W - js_length title - 4) in
  let head :=
    [top_line;
     vline (BOLD ++ YELLOW ++ js " " ++ title ++ RESET ++ titlePad);
     sep_line;
     blank_line] in
  let? body :=
    match items with
    | [] => Some [vline (DIM ++ js " No data available" ++ RESET ++ rep (js " ") (W - 21))]
    | _ =>
        let mx := list_max (map i_value items) in
        omap (chart_row mx total barColor) (firstn 10 items)
    end in
  Some (join [10] (head ++ body ++ [blank_line; bottom_line])).

(** Lines of a text block. *)
Fixpoint split_lines_aux (cur : jstr) (s : jstr) : list jstr :=
  match s with
  | [] => [rev cur]
  | c :: r => if c =? 10 then rev cur :: split_lines_aux [] r else split_lines_aux (c :: cur) r
  end.
Definition split_lines (s : jstr) : list jstr := split_lines_aux [] s.

(** Removal of the ANSI SGR escape sequences ([ESC] up to the final 'm'). *)
Fixpoint strip_ansi (in_esc : bool) (s : jstr) : jstr :=
  match s with
  | [] => []
  | c :: r =>
      if in_esc then strip_ansi (negb (c =? 109)) r
      else if c =? 27 then strip_ansi true r
      else c :: strip_ansi false r
  end.

(** Visible columns: the code points left once color codes are removed
    (a low surrogate continues the code point before it). *)
Definition visible_width (s : jstr) : Z :=
  js_length (filter (fun u => negb ((56320 <=? u) && (u <=? 57343))) (strip_ansi false s)).

End AsciiViz.

(* ------------------------------------------------------------------ *)
(** ** index.ts: the Pi-hole v6 API client and the tool handler *)

Module Pihole.

Local Set Warnings "-register-all".

(** JSON values of the API payloads. *)
Inductive json :=
| JNull
| JBool (b : bool)
| JNum (n : Z)
| JStr (s : jstr)
| JArr (l : list json)
| JObj (fields : list (jstr * json)).

Fixpoint field (k : jstr) (fs : list (jstr * json)) : option json :=
  match fs with
  | [] => None
  | (k', v) :: r => if list_eq_dec Z.eq_dec k k' then Some v else field k r
  end.

(** [obj?.k] on a decoded payload. *)
Definition get (k : jstr) (v : json) : option json :=
  match v with JObj fs => field k fs | _ => None end.

Definition json_truthy (v : json) : bool :=
  match v with
  | JNull => false
  | JBool b => b
  | JNum n => negb (n =? 0)
  | JStr s => negb (length s =? 0)%nat
  | _ => true
  end.

Definition str_truthy (s : jstr) : bool := negb (length s =? 0)%nat.

(** [fetch] request: the body is the object passed to [JSON.stringify]. *)
Record Request := {
  req_url : jstr;
  req_method : jstr;
  req_headers : list (jstr * jstr);
  req_body : option json
}.

(** [fetch] response; [json] is the structural decoding of [text]
    ([None] when [response.json()] rejects with a SyntaxError). *)
Record Response (T : Type) := {
  ok : bool;
  status : Z;
  statusText : jstr;
  text : jstr;
  json_body : option T
}.
Arguments ok {T}. Arguments status {T}. Arguments statusText {T}.
Arguments text {T}. Arguments json_body {T}.

(** [AuthResponse] *)
Record AuthSession := {
  valid : bool;
  totp : bool;
  sid_field : jstr;
  csrf_field : jstr;
  validity : Z;
  message : jstr
}.
Record AuthResponse := { session : option AuthSession }.

(** The private fields of [PiholeClient]; [null] is [None]. *)
Record Client := {
  config_url : jstr;
  config_password : jstr;
  sid : option jstr;
  csrf : option jstr;
  sessionExpiry : Z
}.

(** [config.url.replace(/\/$/, '')] *)
Definition strip_trailing_slash (u : jstr) : jstr :=
  match rev u with 47 :: r => rev r | _ => u end.

(** [new PiholeClient(config)] *)
Definition new_client (url password : jstr) : Client :=
  {| config_url := strip_trailing_slash url; config_password := password;
     sid := None; csrf := None; sessionExpiry := 0 |}.

(** The exchanges performed, in order. *)
Inductive Exchange :=
| AuthExchange (r : Request)
| ApiExchange (r : Request).

Record World := { client : Client; trace : list Exchange }.

(** Errors: [Error message], the SyntaxError of [response.json()], the
    URIError of [encodeURIComponent] and the TypeError of a property read
    on [null]. *)
Inductive Err :=
| Error (msg : jstr)
| SyntaxError
| URIError
| TypeError.

(** The environment: [Date.now()] and the Pi-hole server, both as functions
    of the number of exchanges already performed. *)
Record Env := {
  now : nat -> Z;
  auth_server : nat -> Request -> Response AuthResponse;
  api_server : nat -> Request -> Response json
}.

Definition auth_exchanges (t : list Exchange) : nat :=
  length (filter (fun e => match e with AuthExchange _ => true | _ => false end) t).

(** [String(x)] for the number interpolated in a query string. *)
Definition num_str (n : Z) : jstr := z_to_string n.

Definition is_unreserved (c : Z) : bool :=
  ((65 <=? c) && (c <=? 90)) || ((97 <=? c) && (c <=? 122)) || ((48 <=? c) && (c <=? 57))
  || existsb (Z.eqb c) [45; 95; 46; 33; 126; 42; 39; 40; 41].

Definition hex_digit (d : Z) : Z := if d <? 10 then 48 + d else 55 + d.
Definition pct_byte (b : Z) : jstr := [37; hex_digit (b / 16); hex_digit (b mod 16)].

Definition utf8_bytes (cp : Z) : list Z :=
  if cp <? 128 then [cp]
  else if cp <? 2048 then [192 + cp / 64; 128 + cp mod 64]
  else if cp <? 65536 then [224 + cp / 4096; 128 + (cp / 64) mod 64; 128 + cp mod 64]
  else [240 + cp / 262144; 128 + (cp / 4096) mod 64; 128 + (cp / 64) mod 64; 128 + cp mod 64].

Definition is_high (u : Z) : bool := (55296 <=? u) && (u <=? 56319).
Definition is_low (u : Z) : bool := (56320 <=? u) && (u <=? 57343).

(** [encodeURIComponent]: an unpaired surrogate throws a URIError. *)
Fixpoint encodeURIComponent (s : jstr) : option jstr :=
  match s with
  | [] => Some []
  | c :: r =>
      if is_unreserved c then option_map (cons c) (encodeURIComponent r)
      else if is_low c then None
      else if is_high c then
        match r with
        | d :: r' =>
            if is_low d then
              let cp := 65536 + (c - 55296) * 1024 + (d - 56320) in
              option_map (app (flat_map pct_byte (utf8_bytes cp))) (encodeURIComponent r')
            else None
        | [] => None
        end
      else option_map (app (flat_map pct_byte (utf8_bytes c))) (encodeURIComponent r)
  end.


(** Options of [request]: [method] and [body]; no caller passes headers. *)
Record Options := { o_method : option jstr; o_body : option json }.
Definition no_options : Options := {| o_method := None; o_body := None |}.

Section Client.

Variable env : Env.

(** State and error monad over the world. *)
Definition M (A : Type) : Type := World -> (Err + A) * World.
Definition ret {A} (x : A) : M A := fun w => (inr x, w).
Definition bind {A B} (m : M A) (f : A -> M B) : M B :=
  fun w => match m w with (inr x, w') => f x w' | (inl e, w') => (inl e, w') end.
Definition throw {A} (e : Err) : M A := fun w => (inl e, w).
Definition catch {A} (m : M A) (h : Err -> M A) : M A :=
  fun w => match m w with (inl e, w') => h e w' | r => r end.
Definition get_client : M Client := fun w => (inr (client w), w).
Definition put_client (c : Client) : M unit :=
  fun w => (inr tt, {| client := c; trace := trace w |}).
Definition date_now : M Z := fun w => (inr (now env (length (trace w))), w).
Definition fetch_auth (r : Request) : M (Response AuthResponse) :=
  fun w => (inr (auth_server env (length (trace w)) r),
            {| client := client w; trace := trace w ++ [AuthExchange r] |}).
Definition fetch_api (r : Request) : M (Response json) :=
  fun w => (inr (api_server env (length (trace w)) r),
            {| client := client w; trace := trace w ++ [ApiExchange r] |}).
Definition of_option {A} (o : option A) (e : Err) : M A :=
  match o with Some x => ret x | None => throw e end.

Notation "x <- m ;; k" := (bind m (fun x => k))
  (at level 61, m at next level, right associativity).
Notation "m ;;; k" := (bind m (fun _ => k)) (at level 61, right associativity).

Definition json_header : jstr * jstr := (js "Content-Type", js "application/json").

(** The [fetch] call of [authenticate]. *)
Definition auth_request (c : Client) : Request :=
  {| req_url := config_url c ++ js "/api/auth";
     req_method := js "POST";
     req_headers := [json_header];
     req_body := Some (JObj [(js "password", JStr (config_password c))]) |}.

(** [authenticate] *)
Definition authenticate : M unit :=
  c <- get_client ;;
  response <- fetch_auth (auth_request c) ;;
  if negb (ok response) then
    throw (Error (js "Authentication failed: " ++ num_str (status response) ++ js " "
                  ++ statusText response))
  else
    data <- of_option (json_body response) SyntaxError ;;
    match session data with
    | Some s =>
        if valid s then
          t <- date_now ;;
          put_client {| config_url := config_url c; config_password := config_password c;
                        sid := Some (sid_field s); csrf := Some (csrf_field s);
                        sessionExpiry := t + validity s * 1000 |}
        else throw (Error (js "Authentication failed: "
                           ++ (if str_truthy (message s) then message s else js "Invalid credentials")))
    | None => throw (Error (js "Authentication failed: " ++ js "Invalid credentials"))
    end.

(** [!this.sid] *)
Definition no_sid (c : Client) : bool :=
  match sid c with Some s => negb (str_truthy s) | None => true end.

(** [ensureAuthenticated] *)
Definition ensureAuthenticated : M unit :=
  c <- get_client ;;
  t <- date_now ;;
  if no_sid c || (t >=? sessionExpiry c - 60000) then authenticate else ret tt.

(** The [fetch] call of [request], once the session is ensured. *)
Definition api_request (c : Client) (endpoint : jstr) (options : Options) : Request :=
  let url := config_url c ++ js "/api" ++ endpoint in
  let headers :=
    [json_header] ++ match sid c with
                     | Some s => if str_truthy s then [(js "X-FTL-SID", s)] else []
                     | None => []
                     end in
  {| req_url := url;
     req_method := match o_method options with Some m => m | None => js "GET" end;
     req_headers := headers;
     req_body := o_body options |}.

(** [request] *)
Definition request (endpoint : jstr) (options : Options) : M json :=
  ensureAuthenticated ;;;
  c <- get_client ;;
  response <- fetch_api (api_request c endpoint options) ;;
  if negb (ok response) then
    throw (Error (js "API request failed: " ++ num_str (status response) ++ js " "
                  ++ statusText response ++ js " - " ++ text response))
  else of_option (json_body response) SyntaxError.

Definition post (b : option json) : Options := {| o_method := Some (js "POST"); o_body := b |}.
Definition with_default (d : Z) (o : option Z) : Z := match o with Some n => n | None => d end.

Definition getStats : M json := request (js "/stats/summary") no_options.
Definition getTopBlockedDomains (count : option Z) : M json :=
  request (js "/stats/top_domains?blocked=true&count=" ++ num_str (with_default 10 count)) no_options.
Definition getTopPermittedDomains (count : option Z) : M json :=
  request (js "/stats/top_domains?blocked=false&count=" ++ num_str (with_default 10 count)) no_options.
Definition getTopClients (count : option Z) : M json :=
  request (js "/stats/top_clients?count=" ++ num_str (with_default 10 count)) no_options.
Definition getQueryLog (count : option Z) : M json :=
  request (js "/queries?length=" ++ num_str (with_default 100 count)) no_options.
Definition getBlockingStatus : M json := request (js "/dns/blocking") no_options.
Definition enableBlocking : M json :=
  request (js "/dns/blocking") (post (Some (JObj [(js "blocking", JBool true)]))).

(** [disableBlocking]: [if (duration)] on a number. *)
Definition disableBlocking (duration : option Z) : M json :=
  let body :=
    match duration with
    | Some d => if negb (d =? 0) then JObj [(js "blocking", JBool false); (js "timer", JNum d)]
                else JObj [(js "blocking", JBool false)]
    | None => JObj [(js "blocking", JBool false)]
    end in
  request (js "/dns/blocking") (post (Some body)).

Definition addToWhitelist (domain : jstr) : M unit :=
  request (js "/domains/allow/exact") (post (Some (JObj [(js "domain", JStr domain)]))) ;;; ret tt.
Definition addToBlacklist (domain : jstr) : M unit :=
  request (js "/domains/deny/exact") (post (Some (JObj [(js "domain", JStr domain)]))) ;;; ret tt.

Definition delete : Options := {| o_method := Some (js "DELETE"); o_body := None |}.

(** The template literal is built, and [encodeURIComponent] evaluated,
    before [request] runs. *)
Definition removeFromWhitelist (domain : jstr) : M unit :=
  enc <- of_option (encodeURIComponent domain) URIError ;;
  request (js "/domains/allow/exact/" ++ enc) delete ;;; ret tt.
Definition removeFromBlacklist (domain : jstr) : M unit :=
  enc <- of_option (encodeURIComponent domain) URIError ;;
  request (js "/domains/deny/exact/" ++ enc) delete ;;; ret tt.

Definition getWhitelist : M json := request (js "/domains/allow/exact") no_options.
Definition getBlacklist : M json := request (js "/domains/deny/exact") no_options.
Definition updateGravity : M json := request (js "/action/gravity") (post None).
Definition flushCache : M json := request (js "/action/flush/cache") (post None).

(** [testConnection] *)
Definition testConnection : M bool :=
  catch (authenticate ;;; ret true) (fun _ => ret false).

End Client.

(** The public methods of [PiholeClient]. *)
Inductive Op :=
| GetStats
| GetTopBlockedDomains (count : option Z)
| GetTopPermittedDomains (count : option Z)
| GetTopClients (count : option Z)
| GetQueryLog (count : option Z)
| GetBlockingStatus
| EnableBlocking
| DisableBlocking (duration : option Z)
| AddToWhitelist (domain : jstr)
| AddToBlacklist (domain : jstr)
| RemoveFromWhitelist (domain : jstr)
| RemoveFromBlacklist (domain : jstr)
| GetWhitelist
| GetBlacklist
| UpdateGravity
| FlushCache
| Authenticate
| TestConnection.

Inductive Out := OJson (j : json) | OUnit | OBool (b : bool).

Definition run_op (env : Env) (op : Op) : M Out :=
  let j m := bind m (fun x => ret (OJson x)) in
  let u m := bind m (fun _ => ret OUnit) in
  match op with
  | GetStats => j (getStats env)
  | GetTopBlockedDomains c => j (getTopBlockedDomains env c)
  | GetTopPermittedDomains c => j (getTopPermittedDomains env c)
  | GetTopClients c => j (getTopClients env c)
  | GetQueryLog c => j (getQueryLog env c)
  | GetBlockingStatus => j (getBlockingStatus env)
  | EnableBlocking => j (enableBlocking env)
  | DisableBlocking d => j (disableBlocking env d)
  | AddToWhitelist d => u (addToWhitelist env d)
  | AddToBlacklist d => u (addToBlacklist env d)
  | RemoveFromWhitelist d => u (removeFromWhitelist env d)
  | RemoveFromBlacklist d => u (removeFromBlacklist env d)
  | GetWhitelist => j (getWhitelist env)
  | GetBlacklist => j (getBlacklist env)
  | UpdateGravity => j (updateGravity env)
  | FlushCache => j (flushCache env)
  | Authenticate => u (authenticate env)
  | TestConnection => bind (testConnection env) (fun b => ret (OBool b))
  end.

(** The endpoint and options with which a method calls [request]
    ([None] for [authenticate], [testConnection], and a removal whose
    domain [encodeURIComponent] rejects). *)
Definition op_request (op : Op) : option (jstr * Options) :=
  match op with
  | GetStats => Some (js "/stats/summary", no_options)
  | GetTopBlockedDomains c =>
      Some (js "/stats/top_domains?blocked=true&count=" ++ num_str (with_default 10 c), no_options)
  | GetTopPermittedDomains c =>
      Some (js "/stats/top_domains?blocked=false&count=" ++ num_str (with_default 10 c), no_options)
  | GetTopClients c => Some (js "/stats/top_clients?count=" ++ num_str (with_default 10 c), no_options)
  | GetQueryLog c => Some (js "/queries?length=" ++ num_str (with_default 100 c), no_options)
  | GetBlockingStatus => Some (js "/dns/blocking", no_options)
  | EnableBlocking => Some (js "/dns/blocking", post (Some (JObj [(js "blocking", JBool true)])))
  | DisableBlocking d =>
      Some (js "/dns/blocking", post (Some
        match d with
        | Some x => if negb (x =? 0) then JObj [(js "blocking", JBool false); (js "timer", JNum x)]
                    else JObj [(js "blocking", JBool false)]
        | None => JObj [(js "blocking", JBool false)]
        end))
  | AddToWhitelist d => Some (js "/domains/allow/exact", post (Some (JObj [(js "domain", JStr d)])))
  | AddToBlacklist d => Some (js "/domains/deny/exact", post (Some (JObj [(js "domain", JStr d)])))
  | RemoveFromWhitelist d =>
      option_map (fun enc => (js "/domains/allow/exact/" ++ enc, delete)) (encodeURIComponent d)
  | RemoveFromBlacklist d =>
      option_map (fun enc => (js "/domains/deny/exact/" ++ enc, delete)) (encodeURIComponent d)
  | GetWhitelist => Some (js "/domains/allow/exact", no_options)
  | GetBlacklist => Some (js "/domains/deny/exact", no_options)
  | UpdateGravity => Some (js "/action/gravity", post None)
  | FlushCache => Some (js "/action/flush/cache", post None)
  | Authenticate => None
  | TestConnection => None
  end.

(** Exchanges performed by a run, after those already in the world. *)
Definition new_exchanges {A} (m : M A) (w : World) : list Exchange :=
  skipn (length (trace w)) (trace (snd (m w))).

(** The URLs of the API exchanges of a trace. *)
Definition api_urls (t : list Exchange) : list jstr :=
  flat_map (fun e => match e with ApiExchange r => [req_url r] | AuthExchange _ => [] end) t.

(** The staleness test of [ensureAuthenticated], at the current time. *)
Definition stale (env : Env) (w : World) : bool :=
  no_sid (client w) || (now env (length (trace w)) >=? sessionExpiry (client w) - 60000).

End Pihole.

(** The [CallToolRequestSchema] handler of index.ts, for the tools of the
    client.  The rendering of fetched data (JSON.stringify, the bar charts)
    is not modelled: such a result carries the fetched payload. *)
Module Tools.
Import Pihole.

Inductive Tool :=
| pihole_get_stats
| pihole_get_blocking_status
| pihole_enable_blocking
| pihole_disable_blocking
| pihole_get_top_blocked
| pihole_get_top_permitted
| pihole_get_top_clients
| pihole_get_query_log
| pihole_add_to_whitelist
| pihole_add_to_blacklist
| pihole_remove_from_whitelist
| pihole_remove_from_blacklist
| pihole_get_whitelist
| pihole_get_blacklist
| pihole_update_gravity
| pihole_flush_cache.

(** The arguments, typed as the handler casts them. *)
Record Args := {
  a_count : option Z;
  a_duration : option Z;
  a_domain : jstr
}.

Inductive ToolResult :=
| TText (t : jstr)
| TData (j : json)
| TError (e : Err).

Definition num_truthy (n : Z) : bool := negb (n =? 0).

Definition text_of {A} (m : M A) (f : A -> jstr) : M ToolResult :=
  bind m (fun x => ret (TText (f x))).
Definition data_of (m : M json) : M ToolResult := bind m (fun x => ret (TData x)).

(** [v.k]: [undefined] ([None]) when absent, a TypeError on [null]. *)
Definition read (k : jstr) (v : json) : M (option json) :=
  match v with JNull => throw TypeError | _ => ret (get k v) end.

Definition call_tool (env : Env) (name : Tool) (args : Args) : M ToolResult :=
  catch
    match name with
    | pihole_get_stats => data_of (getStats env)
    | pihole_get_blocking_status => data_of (getBlockingStatus env)
    | pihole_enable_blocking =>
        bind (enableBlocking env) (fun status =>
        bind (read (js "blocking") status) (fun b =>
          ret (TText (js "Blocking " ++
            match b with
            | Some (JStr v) => if list_eq_dec Z.eq_dec v (js "enabled")
                               then js "enabled successfully" else js "failed to enable"
            | _ => js "failed to enable"
            end))))
    | pihole_disable_blocking =>
        let duration := a_duration args in
        text_of (disableBlocking env duration) (fun _ =>
          match duration with
          | Some d => if num_truthy d
                      then js "Blocking disabled for " ++ num_str d ++ js " seconds"
                      else js "Blocking disabled indefinitely"
          | None => js "Blocking disabled indefinitely"
          end)
    | pihole_get_top_blocked =>
        data_of (getTopBlockedDomains env (Some (js_or num_truthy (a_count args) 10)))
    | pihole_get_top_permitted =>
        data_of (getTopPermittedDomains env (Some (js_or num_truthy (a_count args) 10)))
    | pihole_get_top_clients =>
        data_of (getTopClients env (Some (js_or num_truthy (a_count args) 10)))
    | pihole_get_query_log =>
        data_of (getQueryLog env (Some (js_or num_truthy (a_count args) 100)))
    | pihole_add_to_whitelist =>
        text_of (addToWhitelist env (a_domain args)) (fun _ =>
          js "Domain '" ++ a_domain args ++ js "' added to whitelist")
    | pihole_add_to_blacklist =>
        text_of (addToBlacklist env (a_domain args)) (fun _ =>
          js "Domain '" ++ a_domain args ++ js "' added to blacklist")
    | pihole_remove_from_whitelist =>
        text_of (removeFromWhitelist env (a_domain args)) (fun _ =>
          js "Domain '" ++ a_domain args ++ js "' removed from whitelist")
    | pihole_remove_from_blacklist =>
        text_of (removeFromBlacklist env (a_domain args)) (fun _ =>
          js "Domain '" ++ a_domain args ++ js "' removed from blacklist")
    | pihole_get_whitelist => data_of (getWhitelist env)
    | pihole_get_blacklist => data_of (getBlacklist env)
    | pihole_update_gravity =>
        bind (updateGravity env) (fun result =>
        bind (read (js "success") result) (fun v =>
          ret (TText (match v with
                      | Some x => if json_truthy x then js "Gravity update started successfully" else js "Gravity update failed"
                      | None => js "Gravity update failed"
                      end))))
    | pihole_flush_cache =>
        bind (flushCache env) (fun result =>
        bind (read (js "success") result) (fun v =>
          ret (TText (match v with
                      | Some x => if json_truthy x then js "DNS cache flushed successfully" else js "Failed to flush DNS cache"
                      | None => js "Failed to flush DNS cache"
                      end))))
    end
    (fun e => ret (TError e)).

End Tools.

(** Concrete fixtures: a server that accepts the password and answers every
    API call with [body], and a client logged in until [expiry]. *)
Module Fixtures.
Import Pihole.

Definition ok_auth : Response AuthResponse :=
  {| ok := true; status := 200; statusText := js "OK"; text := [];
     json_body := Some {| session := Some {| valid := true; totp := false;
       sid_field := js "s1d"; csrf_field := js "csrf1"; validity := 1800;
       message := js "password correct" |} |} |}.

Definition ok_api (body : json) : Response json :=
  {| ok := true; status := 200; statusText := js "OK"; text := []; json_body := Some body |}.

Definition env0 (body : json) : Env :=
  {| now := fun _ => 1000000; auth_server := fun _ _ => ok_auth;
     api_server := fun _ _ => ok_api body |}.

Definition env_auth (resp : Response AuthResponse) : Env :=
  {| now := fun _ => 1000000; auth_server := fun _ _ => resp;
     api_server := fun _ _ => ok_api JNull |}.

Definition logged_in (expiry : Z) : World :=
  {| client := {| config_url := js "http://pi.hole"; config_password := js "pw";
                  sid := Some (js "old"); csrf := Some (js "c0"); sessionExpiry := expiry |};
     trace := [] |}.

Definition fresh_world : World :=
  {| client := new_client (js "http://pi.hole/") (js "pw"); trace := [] |}.

Definition resp401 : Response AuthResponse :=
  {| ok := false; status := 401; statusText := js "Unauthorized"; text := []; json_body := None |}.

Definition resp_invalid (msg : jstr) : Response AuthResponse :=
  {| ok := true; status := 200; statusText := js "OK"; text := [];
     json_body := Some {| session := Some {| valid := false; totp := false;
       sid_field := []; csrf_field := []; validity := 0; message := msg |} |} |}.

Definition resp500 : Response json :=
  {| ok := false; status := 500; statusText := js "Internal Server Error";
     text := js "disk full"; json_body := None |}.

Definition env_api (resp : Response json) : Env :=
  {| now := fun _ => 1000000; auth_server := fun _ _ => ok_auth;
     api_server := fun _ _ => resp |}.

End Fixtures.

(** Concrete inputs of the rendering functions. *)
Module RenderFixtures.
Import AsciiViz.

Definition stats0 : DashStats :=
  {| queries_total := 1500; queries_blocked := 300; queries_percent_blocked := 20;
     queries_forwarded := 900; queries_cached := 300; queries_unique_domains := 120;
     clients_active := 4; clients_total := 6; gravity_domains_being_blocked := 2500000;
     gravity_last_update := 0; topClients := None; topBlocked := None; topPermitted := None |}.

Definition items0 : list ChartItem := [{| i_label := js "laptop"; i_value := 5 |}].

End RenderFixtures.

(** A decimal digit character. *)
Definition is_digit (c : Z) : Prop := 48 <= c <= 57.

(** A text with no line break. *)
Definition no_nl (s : jstr) : Prop := Forall (fun u => u <> 10) s.

(** A code unit that takes a column of its own: no escape character and no
    low surrogate. *)
Definition plain_unit (u : Z) : Prop := u <> 27 /\ ~ (56320 <= u <= 57343).
Definition plain_unitb (u : Z) : bool := negb (u =? 27) && negb ((56320 <=? u) && (u <=? 57343)).

(* ================================================================== *)
(** * Theorems *)

(** ** Number formatting *)

Lemma digits_rev_all (f : nat) (n : Z) : Forall is_digit (digits_rev f n).
Proof.
  revert n; induction f as [|f IH]; intro n; cbn [digits_rev]; [constructor|].
  constructor.
  - unfold is_digit; pose proof (Z.mod_pos_bound n 10 ltac:(lia)); lia.
  - destruct (n <? 10); [constructor | apply IH].
Qed.

Lemma nat_digits_all (n : Z) : Forall is_digit (nat_digits n).
Proof. unfold nat_digits; apply Forall_rev, digits_rev_all. Qed.










(** ** Bar rendering *)

Lemma rep_length (s : jstr) (n : Z) :
  0 <= n -> js_length (AsciiViz.rep s n) = js_length s * n.
Proof.
  intro Hn. unfold js_length, AsciiViz.rep.
  rewrite <- (Z2Nat.id n Hn) at 2.
  induction (Z.to_nat n) as [|k IH]; [simpl; lia|].
  cbn [repeat concat]. rewrite length_app. lia.
Qed.

Lemma pad_left_short (str : jstr) (width : Z) :
  js_length str <= width ->
  AsciiViz.pad str width AsciiViz.Left = str ++ AsciiViz.rep (js " ") (width - js_length str).
Proof.
  intro H. unfold AsciiViz.pad.
  destruct (Z.geb_spec (js_length str) width) as [Hge|Hlt].
  - assert (E : js_length str = width) by lia.
    unfold js_slice0. replace (width <? 0) with false by (symmetry; apply Z.ltb_ge; unfold js_length in *; lia).
    rewrite <- E. unfold js_length. rewrite Nat2Z.id, firstn_all, Z.sub_diag. simpl.
    rewrite app_nil_r. reflexivity.
  - reflexivity.
Qed.

Lemma bar_partial_length (k : Z) :
  1 <= k <= 7 -> js_length (nth (Z.to_nat k) AsciiViz.BAR_PARTIAL []) = 1.
Proof.
  intro Hk.
  assert (E : (Z.to_nat k = 1 \/ Z.to_nat k = 2 \/ Z.to_nat k = 3 \/ Z.to_nat k = 4 \/
               Z.to_nat k = 5 \/ Z.to_nat k = 6 \/ Z.to_nat k = 7)%nat) by lia.
  destruct E as [E|[E|[E|[E|[E|[E|E]]]]]]; rewrite E; reflexivity.
Qed.

Lemma qfloor_bounds (x : Q) (lo hi : Z) :
  (inject_Z lo <= x)%Q -> (x < inject_Z hi)%Q -> lo <= Qfloor x < hi.
Proof.
  intros H1 H2. split.
  - rewrite <- (Qfloor_Z lo). apply Qfloor_resp_le. exact H1.
  - rewrite Zlt_Qlt. apply Qle_lt_trans with x; [apply Qfloor_le | exact H2].
Qed.

Lemma js_length_app (a b : jstr) : js_length (a ++ b) = js_length a + js_length b.
Proof. unfold js_length. rewrite length_app. lia. Qed.

Lemma js_length_nonneg (a : jstr) : 0 <= js_length a.
Proof. unfold js_length. lia. Qed.

Lemma js_repeat_ok (s : jstr) (n : Z) : 0 <= n -> js_repeat s n = Some (AsciiViz.rep s n).
Proof.
  intro H. unfold js_repeat. replace (n <? 0) with false by (symmetry; apply Z.ltb_ge; lia).
  reflexivity.
Qed.

Lemma bar_general (value max width : Z) :
  0 <= value -> 0 < max -> 0 <= width ->
  let ratio := Qmin (inject_Z value / inject_Z max) 1 in
  let fullUnits := Qfloor (ratio * inject_Z width)%Q in
  let partialIndex := Qfloor ((ratio * inject_Z width - inject_Z fullUnits) * 8)%Q in
  0 <= fullUnits <= width /\ 0 <= partialIndex <= 7 /\
  exists p,
    (p = [] \/ (1 <= partialIndex /\ p = nth (Z.to_nat partialIndex) AsciiViz.BAR_PARTIAL [])) /\
    AsciiViz.bar value max width =
      Some (AsciiViz.rep AsciiViz.BAR_FULL fullUnits ++ p
            ++ AsciiViz.rep (js " ") (width - fullUnits - js_length p)) /\
    js_length (AsciiViz.rep AsciiViz.BAR_FULL fullUnits ++ p
               ++ AsciiViz.rep (js " ") (width - fullUnits - js_length p)) = width.
Proof.
  intros Hv Hm Hw ratio fullUnits partialIndex.
  assert (Hr0 : (0 <= ratio)%Q).
  { apply Q.min_glb; [|discriminate].
    apply Qle_shift_div_l; [unfold Qlt; simpl; lia|].
    rewrite Qmult_0_l. unfold Qle; simpl; lia. }
  assert (Hr1 : (ratio <= 1)%Q) by apply Q.le_min_r.
  assert (Hw' : (0 <= inject_Z width)%Q) by (unfold Qle; simpl; lia).
  assert (Hrw0 : (0 <= ratio * inject_Z width)%Q) by (apply Qmult_le_0_compat; assumption).
  assert (Hrw1 : (ratio * inject_Z width <= inject_Z width)%Q).
  { rewrite <- (Qmult_1_l (inject_Z width)) at 2. apply Qmult_le_compat_r; assumption. }
  assert (Hfull : 0 <= fullUnits <= width).
  { assert (B : 0 <= fullUnits < width + 1).
    { apply qfloor_bounds; [exact Hrw0|].
      apply Qle_lt_trans with (inject_Z width); [exact Hrw1|].
      rewrite <- Zlt_Qlt; lia. }
    lia. }
  assert (Hrem0 : (0 <= ratio * inject_Z width - inject_Z fullUnits)%Q).
  { apply (proj1 (Qle_minus_iff _ _)). apply Qfloor_le. }
  assert (Hrem1 : (ratio * inject_Z width - inject_Z fullUnits < 1)%Q).
  { pose proof (Qlt_floor (ratio * inject_Z width)) as H.
    fold fullUnits in H. rewrite inject_Z_plus in H.
    apply Qplus_lt_l with (inject_Z fullUnits).
    setoid_replace (ratio * inject_Z width - inject_Z fullUnits + inject_Z fullUnits)%Q
      with (ratio * inject_Z width)%Q by ring.
    rewrite Qplus_comm. exact H. }
  assert (Hpi : 0 <= partialIndex < 8).
  { apply qfloor_bounds.
    - apply Qmult_le_0_compat; [exact Hrem0 | discriminate].
    - setoid_replace (inject_Z 8) with (1 * 8)%Q by reflexivity.
      apply Qmult_lt_r; [reflexivity | exact Hrem1]. }
  split; [exact Hfull|]. split; [lia|].
  unfold AsciiViz.bar.
  replace (max =? 0) with false by (symmetry; apply Z.eqb_neq; lia).
  fold ratio fullUnits partialIndex.
  rewrite (js_repeat_ok _ _ (proj1 Hfull)). cbn [AsciiViz.obind].
  assert (Hlf : js_length (AsciiViz.rep AsciiViz.BAR_FULL fullUnits) = fullUnits).
  { rewrite rep_length by lia. change (js_length AsciiViz.BAR_FULL) with 1. lia. }
  rewrite Hlf.
  destruct ((partialIndex >? 0) && (fullUnits <? width)) eqn:C.
  - apply andb_true_iff in C. destruct C as [C1 C2].
    apply Z.gtb_lt in C1. apply Z.ltb_lt in C2.
    set (p := nth (Z.to_nat partialIndex) AsciiViz.BAR_PARTIAL []).
    assert (Hp : js_length p = 1) by (apply bar_partial_length; lia).
    exists p. split; [right; split; [lia|reflexivity]|].
    rewrite pad_left_short by (rewrite js_length_app, Hlf, Hp; lia).
    rewrite js_length_app, Hlf, Hp, <- app_assoc.
    split; [replace (width - (fullUnits + 1)) with (width - fullUnits - 1) by lia; reflexivity|].
    rewrite !js_length_app, Hlf, Hp, rep_length by lia. change (js_length (js " ")) with 1. lia.
  - exists []. split; [left; reflexivity|].
    assert (E0 : width - fullUnits - js_length [] = width - fullUnits)
      by (unfold js_length; cbn [length]; lia).
    rewrite E0. cbn [app].
    rewrite pad_left_short by (rewrite Hlf; lia). rewrite Hlf.
    split; [reflexivity|].
    rewrite js_length_app, Hlf, rep_length by lia. change (js_length (js " ")) with 1. lia.
Qed.




(** ** Layout composition *)

(** C8 (code bug). The lines of the dashboard and of the bar chart do not
    all have 78 visible columns: on [stats0] the three summary rows
    ("Total Queries", "Blocked", "Block Rate") have 71, and the bar-chart
    row for [items0] with a total has 79 (73 without one). *)
Theorem layout_widths_not_78 :
  let widths o := option_map (fun s => map AsciiViz.visible_width (AsciiViz.split_lines s)) o in
  widths (AsciiViz.createDashboard RenderFixtures.stats0)
    = Some [78; 74; 78; 78; 76; 76; 71; 71; 71; 78; 78] /\
  widths (AsciiViz.createBarChart (js "TOP CLIENTS") RenderFixtures.items0 (Some 10)
            AsciiViz.BRIGHT_BLUE)
    = Some [78; 77; 78; 78; 79; 78; 78] /\
  widths (AsciiViz.createBarChart (js "TOP CLIENTS") RenderFixtures.items0 None
            AsciiViz.BRIGHT_BLUE)
    = Some [78; 77; 78; 78; 73; 78; 78].
Proof. intro widths. split; [|split]; vm_compute; reflexivity. Qed.

(** ** The session client *)

Module ClientProofs.
Import Pihole.

Lemma authenticate_trace (env : Env) (w : World) :
  exists r, trace (snd (authenticate env w)) = trace w ++ [AuthExchange r] /\
            config_url (client (snd (authenticate env w))) = config_url (client w).
Proof.
  cbv [authenticate bind get_client fetch_auth throw of_option ret date_now put_client].
  destruct (auth_server env (length (trace w)) (auth_request (client w)))
    as [okr st stt tx jb].
  exists (auth_request (client w)).
  destruct okr; cbn [negb snd fst client trace ok json_body].
  - destruct jb as [d|]; [|split; reflexivity].
    destruct (session d) as [s|]; [|split; reflexivity].
    destruct (valid s); split; reflexivity.
  - split; reflexivity.
Qed.

Lemma ensure_stale (env : Env) (w : World) :
  stale env w = true ->
  exists r, trace (snd (ensureAuthenticated env w)) = trace w ++ [AuthExchange r].
Proof.
  intro H. unfold stale in H.
  cbv [ensureAuthenticated bind get_client date_now]. rewrite H.
  destruct (authenticate_trace env w) as [r [Ht _]]. exists r. exact Ht.
Qed.

Lemma ensure_fresh (env : Env) (w : World) :
  stale env w = false -> ensureAuthenticated env w = (inr tt, w).
Proof.
  intro H. unfold stale in H.
  cbv [ensureAuthenticated bind get_client date_now]. rewrite H. reflexivity.
Qed.

Lemma ensure_config (env : Env) (w : World) :
  config_url (client (snd (ensureAuthenticated env w))) = config_url (client w).
Proof.
  cbv [ensureAuthenticated bind get_client date_now].
  destruct (no_sid (client w) || _).
  - destruct (authenticate_trace env w) as [_ [_ Hc]]. exact Hc.
  - reflexivity.
Qed.

Lemma request_trace (env : Env) (ep : jstr) (o : Options) (w : World) :
  trace (snd (request env ep o w)) =
  trace (snd (ensureAuthenticated env w)) ++
    match fst (ensureAuthenticated env w) with
    | inr _ => [ApiExchange (api_request (client (snd (ensureAuthenticated env w))) ep o)]
    | inl _ => []
    end.
Proof.
  unfold request. unfold bind at 1.
  destruct (ensureAuthenticated env w) as [[e|u] w1]; cbn [fst snd].
  - rewrite app_nil_r. reflexivity.
  - cbv [bind get_client fetch_api throw of_option ret].
    destruct (api_server env (length (trace w1)) (api_request (client w1) ep o))
      as [okr st stt tx jb].
    destruct okr; cbn [negb snd trace]; [destruct jb|]; reflexivity.
Qed.

Lemma request_result (env : Env) (ep : jstr) (o : Options) (w w1 : World) :
  ensureAuthenticated env w = (inr tt, w1) ->
  let resp := api_server env (length (trace w1)) (api_request (client w1) ep o) in
  fst (request env ep o w) =
    if ok resp then
      match json_body resp with Some j => inr j | None => inl SyntaxError end
    else inl (Error (js "API request failed: " ++ num_str (status resp) ++ js " "
                     ++ statusText resp ++ js " - " ++ text resp)).
Proof.
  intros H resp. unfold request. unfold bind at 1. rewrite H.
  cbv [bind get_client fetch_api throw of_option ret]. fold resp.
  destruct resp as [okr st stt tx jb]. cbn [ok json_body status statusText text].
  destruct okr; cbn [negb fst]; [destruct jb|]; reflexivity.
Qed.

Lemma bind_trace {A B} (m : M A) (f : A -> B) (w : World) :
  trace (snd (bind m (fun x => ret (f x)) w)) = trace (snd (m w)).
Proof. unfold bind, ret. destruct (m w) as [[e|x] w']; reflexivity. Qed.

Lemma run_op_request (env : Env) (op : Op) (ep : jstr) (o : Options) (w : World) :
  op_request op = Some (ep, o) ->
  trace (snd (run_op env op w)) = trace (snd (request env ep o w)).
Proof.
  intro H. unfold run_op.
  destruct op; cbn [op_request] in H; try discriminate; cbv beta zeta.
  all: try (injection H as <- <-; rewrite bind_trace; reflexivity).
  1-2: injection H as <- <-; rewrite bind_trace;
       cbv [addToWhitelist addToBlacklist]; rewrite bind_trace; reflexivity.
  all: destruct (encodeURIComponent domain) as [enc|] eqn:E; cbn [option_map] in H;
       [|discriminate]; injection H as <- <-; rewrite bind_trace;
       cbv [removeFromWhitelist removeFromBlacklist of_option]; rewrite E;
       unfold bind at 1, ret at 1; apply bind_trace.
Qed.

Lemma skipn_prefix {A} (l r : list A) : skipn (length l) (l ++ r) = r.
Proof. rewrite skipn_app, skipn_all, Nat.sub_diag. reflexivity. Qed.

Lemma op_request_defined (op : Op) :
  op <> Authenticate -> op <> TestConnection ->
  (forall d, op = RemoveFromWhitelist d \/ op = RemoveFromBlacklist d -> encodeURIComponent d <> None) ->
  exists ep o, op_request op = Some (ep, o).
Proof.
  intros Ha Ht Hd.
  destruct op; cbn [op_request]; try (do 2 eexists; reflexivity); try congruence.
  - destruct (encodeURIComponent domain) as [enc|] eqn:E.
    + do 2 eexists; reflexivity.
    + exfalso. exact (Hd domain (or_introl eq_refl) E).
  - destruct (encodeURIComponent domain) as [enc|] eqn:E.
    + do 2 eexists; reflexivity.
    + exfalso. exact (Hd domain (or_intror eq_refl) E).
Qed.

Lemma new_exchanges_request (env : Env) (op : Op) (ep : jstr) (o : Options) (w : World) :
  op_request op = Some (ep, o) ->
  new_exchanges (run_op env op) w =
  skipn (length (trace w)) (trace (snd (ensureAuthenticated env w))) ++
    match fst (ensureAuthenticated env w) with
    | inr _ => [ApiExchange (api_request (client (snd (ensureAuthenticated env w))) ep o)]
    | inl _ => []
    end.
Proof.
  intro H. unfold new_exchanges. rewrite (run_op_request env op ep o w H), request_trace.
  destruct (ensureAuthenticated env w) as [r w1] eqn:E. cbn [fst snd].
  unfold ensureAuthenticated, bind, get_client, date_now in E.
  destruct (no_sid (client w) || _).
  - destruct (authenticate_trace env w) as [x [Hx _]]. rewrite E in Hx. cbn [snd] in Hx.
    rewrite Hx, <- app_assoc, !skipn_prefix. reflexivity.
  - injection E as <- <-. rewrite skipn_prefix. cbn [skipn]. rewrite skipn_all.
    reflexivity.
Qed.

Lemma ensure_new_auth (env : Env) (w : World) (x : Exchange) :
  In x (skipn (length (trace w)) (trace (snd (ensureAuthenticated env w)))) ->
  exists r, x = AuthExchange r.
Proof.
  destruct (stale env w) eqn:Es.
  - destruct (ensure_stale env w Es) as [r Hr]. rewrite Hr, skipn_prefix.
    intros [<-|[]]. eauto.
  - rewrite (ensure_fresh env w Es). cbn [snd]. rewrite skipn_all. intros [].
Qed.

Lemma api_exchanges_of_op (env : Env) (op : Op) (ep : jstr) (o : Options) (w : World) (r : Request) :
  op_request op = Some (ep, o) ->
  In (ApiExchange r) (new_exchanges (run_op env op) w) ->
  exists c1, r = api_request c1 ep o /\ config_url c1 = config_url (client w).
Proof.
  intros Hop Hin. rewrite (new_exchanges_request env op ep o w Hop) in Hin.
  apply in_app_iff in Hin. destruct Hin as [Hin|Hin].
  - destruct (ensure_new_auth env w _ Hin) as [x Hx]. discriminate.
  - destruct (fst (ensureAuthenticated env w)); [destruct Hin|].
    destruct Hin as [Hin|[]]. injection Hin as <-.
    exists (client (snd (ensureAuthenticated env w))). split; [reflexivity|].
    apply ensure_config.
Qed.






End ClientProofs.

Module ClientClaims.
Import Pihole ClientProofs.

(** C1 (counterexample): [testConnection] calls [authenticate] directly,
    without the staleness check; on a client holding a token that expires
    half an hour from now it still performs one authentication exchange. *)
Lemma testConnection_reauthenticates_fresh_session :
  let w := Fixtures.logged_in (1000000 + 1800000) in
  let env := Fixtures.env0 JNull in
  sid (client w) = Some (js "old") /\
  now env (length (trace w)) < sessionExpiry (client w) - 60000 /\
  auth_exchanges (new_exchanges (run_op env TestConnection) w) = 1%nat.
Proof.
  intros w env. split; [reflexivity|split].
  - vm_compute. reflexivity.
  - vm_compute. reflexivity.
Qed.

(** C1 (amended): every public method other than [authenticate] and
    [testConnection], whose arguments do not make [encodeURIComponent]
    throw, first evaluates the staleness check.  When no token is held
    (absent or empty) or the current time is at or after the expiry minus
    60000 ms, its first exchange is an authentication exchange and it makes
    exactly one; when a non-empty token is held and the current time is
    strictly before the expiry minus 60000 ms, it makes none. *)
Theorem staleness_check_auth_exchanges (env : Env) (op : Op) (w : World) :
  op <> Authenticate -> op <> TestConnection ->
  (forall d, op = RemoveFromWhitelist d \/ op = RemoveFromBlacklist d -> encodeURIComponent d <> None) ->
  let c := client w in
  let t := now env (length (trace w)) in
  let ex := new_exchanges (run_op env op) w in
  ((sid c = None \/ sid c = Some [] \/ t >= sessionExpiry c - 60000) ->
     auth_exchanges ex = 1%nat /\ exists r, hd_error ex = Some (AuthExchange r)) /\
  ((exists s, sid c = Some s /\ s <> []) -> t < sessionExpiry c - 60000 ->
     auth_exchanges ex = 0%nat).
Proof.
  intros Ha Ht Hd c t ex.
  destruct (op_request_defined op Ha Ht Hd) as [ep [o Eop]].
  unfold ex. rewrite (new_exchanges_request env op ep o w Eop).
  split.
  - intro Hs.
    assert (Hst : stale env w = true).
    { unfold stale, no_sid. fold c t.
      destruct Hs as [H|[H|H]]; [rewrite H; reflexivity|rewrite H; reflexivity|].
      apply orb_true_intro. right. apply Z.geb_le. lia. }
    destruct (ensure_stale env w Hst) as [r Hr]. rewrite Hr, skipn_prefix.
    destruct (fst (ensureAuthenticated env w)); cbn; split; eauto.
  - intros [s [Hs Hne]] Hlt.
    assert (Hst : stale env w = false).
    { unfold stale, no_sid. fold c t. rewrite Hs.
      destruct s as [|u s']; [contradiction|]. cbn [str_truthy negb length Nat.eqb orb].
      rewrite Z.geb_leb. apply Z.leb_gt. lia. }
    rewrite (ensure_fresh env w Hst). cbn [fst snd]. rewrite skipn_all. reflexivity.
Qed.

Lemma staleness_check_auth_exchanges_witness :
  GetStats <> Authenticate /\ GetStats <> TestConnection /\
  (forall d, GetStats = RemoveFromWhitelist d \/ GetStats = RemoveFromBlacklist d ->
             encodeURIComponent d <> None) /\
  auth_exchanges (new_exchanges (run_op (Fixtures.env0 JNull) GetStats) Fixtures.fresh_world) = 1%nat /\
  auth_exchanges (new_exchanges (run_op (Fixtures.env0 JNull) GetStats)
                    (Fixtures.logged_in (1000000 + 1800000))) = 0%nat.
Proof.
  assert (Ha : GetStats <> Authenticate) by discriminate.
  assert (Ht : GetStats <> TestConnection) by discriminate.
  assert (Hd : forall d, GetStats = RemoveFromWhitelist d \/ GetStats = RemoveFromBlacklist d ->
                         encodeURIComponent d <> None)
    by (intros d [H|H]; discriminate).
  split; [exact Ha|split; [exact Ht|split; [exact Hd|split]]].
  - apply (proj1 (staleness_check_auth_exchanges (Fixtures.env0 JNull) GetStats
                    Fixtures.fresh_world Ha Ht Hd)).
    left. reflexivity.
  - apply (proj2 (staleness_check_auth_exchanges (Fixtures.env0 JNull) GetStats
                    (Fixtures.logged_in (1000000 + 1800000)) Ha Ht Hd)).
    + exists (js "old"). split; [reflexivity|discriminate].
    + vm_compute. reflexivity.
Defined.

(** C2: [authenticate] makes one exchange.  On a non-ok response it fails
    with an [Error] whose message carries the status; on an ok response whose
    payload has an invalid or absent session it fails with the server's
    message when non-empty, else with the fixed default; an undecodable
    payload fails with [SyntaxError]; in each failing case the client is
    left unchanged.  Only a valid session stores the token, the CSRF token
    and the expiry [now + validity * 1000]. *)
Theorem authenticate_outcomes (env : Env) (w : World) :
  let c := client w in
  let k := length (trace w) in
  let resp := auth_server env k (auth_request c) in
  let r := authenticate env w in
  trace (snd r) = trace w ++ [AuthExchange (auth_request c)] /\
  (ok resp = false ->
     fst r = inl (Error (js "Authentication failed: " ++ num_str (status resp) ++ js " "
                         ++ statusText resp)) /\ client (snd r) = c) /\
  (ok resp = true -> json_body resp = None ->
     fst r = inl SyntaxError /\ client (snd r) = c) /\
  (forall data, ok resp = true -> json_body resp = Some data ->
     match session data with Some s => valid s = false | None => True end ->
     fst r = inl (Error (js "Authentication failed: " ++
        match session data with
        | Some s => if str_truthy (message s) then message s else js "Invalid credentials"
        | None => js "Invalid credentials"
        end)) /\ client (snd r) = c) /\
  (forall data s, ok resp = true -> json_body resp = Some data ->
     session data = Some s -> valid s = true ->
     fst r = inr tt /\
     client (snd r) = {| config_url := config_url c; config_password := config_password c;
                         sid := Some (sid_field s); csrf := Some (csrf_field s);
                         sessionExpiry := now env (S k) + validity s * 1000 |}).
Proof.
  intros c k resp r. unfold r.
  cbv [authenticate bind get_client fetch_auth throw of_option ret date_now put_client].
  fold c k resp.
  destruct resp as [okr st stt tx jb]. cbn [ok json_body status statusText].
  destruct okr; cbn [negb].
  - destruct jb as [d|]; cbn [fst snd client trace].
    + destruct (session d) as [s|] eqn:Es; [destruct (valid s) eqn:Ev|];
        cbn [fst snd client trace].
      * split; [reflexivity|]. split; [discriminate|]. split; [discriminate|].
        split.
        -- intros data _ Hj Hm. injection Hj as <-. rewrite Es, Ev in Hm. discriminate.
        -- intros data s0 _ Hj Hs0 _. injection Hj as <-. rewrite Es in Hs0.
           injection Hs0 as <-. split; [reflexivity|].
           rewrite length_app, Nat.add_1_r. reflexivity.
      * split; [reflexivity|]. split; [discriminate|]. split; [discriminate|].
        split.
        -- intros data _ Hj _. injection Hj as <-. rewrite Es. split; reflexivity.
        -- intros data s0 _ Hj Hs0 Hv. injection Hj as <-. rewrite Es in Hs0.
           injection Hs0 as <-. congruence.
      * split; [reflexivity|]. split; [discriminate|]. split; [discriminate|].
        split.
        -- intros data _ Hj _. injection Hj as <-. rewrite Es. split; reflexivity.
        -- intros data s0 _ Hj Hs0 _. injection Hj as <-. congruence.
    + split; [reflexivity|]. split; [discriminate|].
      split; [intros _ _; split; reflexivity|].
      split; intros; discriminate.
  - cbn [fst snd client trace].
    split; [reflexivity|].
    split; [intros _; split; reflexivity|].
    split; [discriminate|]. split; intros; discriminate.
Qed.

Lemma authenticate_outcomes_witness :
  fst (authenticate (Fixtures.env_auth Fixtures.resp401) Fixtures.fresh_world)
    = inl (Error (js "Authentication failed: 401 Unauthorized")) /\
  fst (authenticate (Fixtures.env_auth (Fixtures.resp_invalid (js "password incorrect"))) Fixtures.fresh_world)
    = inl (Error (js "Authentication failed: password incorrect")) /\
  fst (authenticate (Fixtures.env_auth (Fixtures.resp_invalid [])) Fixtures.fresh_world)
    = inl (Error (js "Authentication failed: Invalid credentials")) /\
  sessionExpiry (client (snd (authenticate (Fixtures.env0 JNull) Fixtures.fresh_world)))
    = 1000000 + 1800 * 1000.
Proof.
  split; [|split; [|split]].
  - destruct (authenticate_outcomes (Fixtures.env_auth Fixtures.resp401) Fixtures.fresh_world)
      as [_ [H _]].
    rewrite (proj1 (H eq_refl)). vm_compute. reflexivity.
  - destruct (authenticate_outcomes (Fixtures.env_auth (Fixtures.resp_invalid (js "password incorrect")))
                Fixtures.fresh_world) as [_ [_ [_ [H _]]]].
    rewrite (proj1 (H _ eq_refl eq_refl eq_refl)). vm_compute. reflexivity.
  - destruct (authenticate_outcomes (Fixtures.env_auth (Fixtures.resp_invalid [])) Fixtures.fresh_world)
      as [_ [_ [_ [H _]]]].
    rewrite (proj1 (H _ eq_refl eq_refl eq_refl)). vm_compute. reflexivity.
  - destruct (authenticate_outcomes (Fixtures.env0 JNull) Fixtures.fresh_world)
      as [_ [_ [_ [_ H]]]].
    rewrite (proj2 (H _ _ eq_refl eq_refl eq_refl eq_refl)). reflexivity.
Defined.

(** C3: once [ensureAuthenticated] has succeeded, [request] makes exactly
    one API exchange, and its outcome is decided by that response alone: a
    non-ok response fails with an [Error] carrying the status, the status
    text and the full response text; an ok response yields the decoded JSON
    value unchanged, or [SyntaxError] when it does not decode. *)
Theorem request_outcome (env : Env) (ep : jstr) (o : Options) (w w1 : World) :
  ensureAuthenticated env w = (inr tt, w1) ->
  let rq := api_request (client w1) ep o in
  let resp := api_server env (length (trace w1)) rq in
  trace (snd (request env ep o w)) = trace w1 ++ [ApiExchange rq] /\
  (ok resp = false ->
     fst (request env ep o w) =
       inl (Error (js "API request failed: " ++ num_str (status resp) ++ js " "
                   ++ statusText resp ++ js " - " ++ text resp))) /\
  (forall j, ok resp = true -> json_body resp = Some j -> fst (request env ep o w) = inr j) /\
  (ok resp = true -> json_body resp = None -> fst (request env ep o w) = inl SyntaxError).
Proof.
  intros H rq resp.
  pose proof (request_result env ep o w w1 H) as Hr. cbv zeta in Hr. fold rq resp in Hr.
  split.
  - rewrite request_trace, H. reflexivity.
  - rewrite Hr. split; [intros Ho; rewrite Ho; reflexivity|].
    split; intros; rewrite H0, H1; reflexivity.
Qed.

Lemma request_outcome_witness :
  ensureAuthenticated (Fixtures.env_api Fixtures.resp500) (Fixtures.logged_in 9000000)
    = (inr tt, Fixtures.logged_in 9000000) /\
  fst (request (Fixtures.env_api Fixtures.resp500) (js "/stats/summary") no_options (Fixtures.logged_in 9000000))
    = inl (Error (js "API request failed: 500 Internal Server Error - disk full")).
Proof.
  assert (H : ensureAuthenticated (Fixtures.env_api Fixtures.resp500) (Fixtures.logged_in 9000000)
              = (inr tt, Fixtures.logged_in 9000000)) by (vm_compute; reflexivity).
  split; [exact H|].
  destruct (request_outcome (Fixtures.env_api Fixtures.resp500) (js "/stats/summary") no_options _ _ H)
    as [_ [H2 _]].
  rewrite (H2 eq_refl). vm_compute. reflexivity.
Defined.



(** C10: every API exchange of [disableBlocking] POSTs to [/api/dns/blocking];
    its body is [{blocking: false, timer: d}] for a non-zero duration [d]
    and exactly [{blocking: false}] when the duration is omitted or 0. *)
Theorem disable_blocking_body (env : Env) (w : World) (duration : option Z) :
  forall r, In (ApiExchange r) (new_exchanges (run_op env (DisableBlocking duration)) w) ->
  req_method r = js "POST" /\
  req_url r = config_url (client w) ++ js "/api/dns/blocking" /\
  (forall d, duration = Some d -> d <> 0 ->
     req_body r = Some (JObj [(js "blocking", JBool false); (js "timer", JNum d)])) /\
  (duration = None \/ duration = Some 0 ->
     req_body r = Some (JObj [(js "blocking", JBool false)])).
Proof.
  intros r Hin.
  assert (Hop : exists b, op_request (DisableBlocking duration) = Some (js "/dns/blocking", post (Some b)))
    by (eexists; reflexivity).
  destruct Hop as [b Hop].
  destruct (api_exchanges_of_op env _ _ _ w r Hop Hin) as [c1 [-> Hc]].
  cbn [op_request] in Hop. injection Hop as Hb.
  cbn [api_request req_url req_method req_body post o_method o_body].
  split; [reflexivity|]. split; [rewrite Hc; reflexivity|]. rewrite <- Hb. split.
  - intros d -> Hd. apply Z.eqb_neq in Hd. rewrite Hd. reflexivity.
  - intros [->| ->]; reflexivity.
Qed.

Lemma disable_blocking_body_witness :
  (forall r, In (ApiExchange r) (new_exchanges (run_op (Fixtures.env0 JNull) (DisableBlocking (Some 0)))
                                   (Fixtures.logged_in 9000000)) ->
     req_body r = Some (JObj [(js "blocking", JBool false)])) /\
  (forall r, In (ApiExchange r) (new_exchanges (run_op (Fixtures.env0 JNull) (DisableBlocking (Some 300)))
                                   (Fixtures.logged_in 9000000)) ->
     req_body r = Some (JObj [(js "blocking", JBool false); (js "timer", JNum 300)])).
Proof.
  split; intros r Hin.
  - destruct (disable_blocking_body _ _ _ r Hin) as [_ [_ [_ H]]]. apply H. right. reflexivity.
  - destruct (disable_blocking_body _ _ _ r Hin) as [_ [_ [H _]]]. apply H; [reflexivity|discriminate].
Defined.

End ClientClaims.

Module ToolClaims.
Import Pihole ClientProofs Tools.




(** C4 (code bug): the client methods put an explicit count of 0 into the
    query string verbatim, but the tool handler computes [count || 10]
    (and [count || 100] for the query log), so a tool call with
    [count: 0] asks the server for 10 (or 100) entries. *)
Theorem tool_zero_count_replaced_by_default :
  let env := Fixtures.env0 JNull in
  let w := Fixtures.logged_in 9000000 in
  let args := {| a_count := Some 0; a_duration := None; a_domain := [] |} in
  api_urls (new_exchanges (run_op env (GetTopBlockedDomains (Some 0))) w)
    = [js "http://pi.hole/api/stats/top_domains?blocked=true&count=0"] /\
  api_urls (new_exchanges (call_tool env pihole_get_top_blocked args) w)
    = [js "http://pi.hole/api/stats/top_domains?blocked=true&count=10"] /\
  api_urls (new_exchanges (call_tool env pihole_get_top_permitted args) w)
    = [js "http://pi.hole/api/stats/top_domains?blocked=false&count=10"] /\
  api_urls (new_exchanges (call_tool env pihole_get_top_clients args) w)
    = [js "http://pi.hole/api/stats/top_clients?count=10"] /\
  api_urls (new_exchanges (run_op env (GetQueryLog (Some 0))) w)
    = [js "http://pi.hole/api/queries?length=0"] /\
  api_urls (new_exchanges (call_tool env pihole_get_query_log args) w)
    = [js "http://pi.hole/api/queries?length=100"].
Proof. intros env w args. repeat split; vm_compute; reflexivity. Qed.




End ToolClaims.

(** ** Further properties of the rendering helpers *)

Module RenderProofs.
Import AsciiViz.

Lemma plain_check (s : jstr) : forallb plain_unitb s = true -> Forall plain_unit s.
Proof.
  intro H. apply Forall_forall. intros u Hu. rewrite forallb_forall in H.
  specialize (H u Hu). unfold plain_unitb in H. apply andb_true_iff in H.
  destruct H as [H1 H2]. apply negb_true_iff in H1, H2. apply Z.eqb_neq in H1.
  split; [exact H1|]. intros [Ha Hb]. apply Z.leb_le in Ha, Hb. rewrite Ha, Hb in H2.
  discriminate.
Qed.

Ltac plain_const := apply plain_check; vm_compute; reflexivity.

Lemma rep_space (n : Z) : rep (js " ") n = repeat 32 (Z.to_nat n).
Proof.
  unfold rep. change (js " ") with [32].
  induction (Z.to_nat n) as [|k IH]; [reflexivity|]. cbn [repeat concat]. rewrite IH. reflexivity.
Qed.

Lemma pad_eq (s : jstr) (width : Z) (al : align) :
  0 <= width ->
  pad s width al =
    if js_length s >=? width then firstn (Z.to_nat width) s
    else match al with
         | Left => s ++ repeat 32 (Z.to_nat (width - js_length s))
         | Right => repeat 32 (Z.to_nat (width - js_length s)) ++ s
         end.
Proof.
  intro Hw. unfold pad. destruct (js_length s >=? width).
  - unfold js_slice0. replace (width <? 0) with false by (symmetry; apply Z.ltb_ge; lia).
    reflexivity.
  - cbv zeta. rewrite rep_space. reflexivity.
Qed.

Lemma pad_length_aux (s : jstr) (width : Z) (al : align) :
  0 <= width -> js_length (pad s width al) = width.
Proof.
  intro Hw. rewrite pad_eq by exact Hw. unfold js_length in *.
  destruct (Z.geb_spec (Z.of_nat (length s)) width).
  - rewrite length_firstn. lia.
  - destruct al; rewrite length_app, repeat_length; lia.
Qed.

Lemma Forall_firstn' {A} (P : A -> Prop) (n : nat) (l : list A) :
  Forall P l -> Forall P (firstn n l).
Proof.
  intro H. apply Forall_forall. intros x Hx. rewrite Forall_forall in H.
  apply H. rewrite <- (firstn_skipn n l). apply in_app_iff. left. exact Hx.
Qed.

Lemma Forall_skipn' {A} (P : A -> Prop) (n : nat) (l : list A) :
  Forall P l -> Forall P (skipn n l).
Proof.
  intro H. apply Forall_forall. intros x Hx. rewrite Forall_forall in H.
  apply H. rewrite <- (firstn_skipn n l). apply in_app_iff. right. exact Hx.
Qed.

Lemma Forall_repeat' {A} (P : A -> Prop) (x : A) (n : nat) : P x -> Forall P (repeat x n).
Proof. intro H. induction n; constructor; assumption. Qed.

Lemma Forall_rep (P : Z -> Prop) (s : jstr) (n : Z) : Forall P s -> Forall P (rep s n).
Proof.
  intro H. unfold rep. induction (Z.to_nat n) as [|k IH]; [constructor|].
  cbn [repeat concat]. apply Forall_app. split; assumption.
Qed.

Lemma pad_forall (P : Z -> Prop) (s : jstr) (width : Z) (al : align) :
  P 32 -> Forall P s -> Forall P (pad s width al).
Proof.
  intros H32 Hs. unfold pad. destruct (js_length s >=? width).
  - unfold js_slice0. destruct (width <? 0); apply Forall_firstn'; exact Hs.
  - cbv zeta. assert (Hr : Forall P (rep (js " ") (width - js_length s))).
    { apply Forall_rep. change (js " ") with [32]. repeat constructor. exact H32. }
    destruct al; apply Forall_app; split; assumption.
Qed.

Lemma strip_plain (a b : jstr) :
  Forall (fun u => u <> 27) a -> strip_ansi false (a ++ b) = a ++ strip_ansi false b.
Proof.
  induction 1 as [|u a Hu _ IH]; [reflexivity|].
  cbn [app strip_ansi]. replace (u =? 27) with false by (symmetry; apply Z.eqb_neq; exact Hu).
  rewrite IH. reflexivity.
Qed.

Lemma strip_sgr (ds b : jstr) :
  Forall (fun d => 48 <= d <= 57) ds ->
  strip_ansi false ([27; 91] ++ ds ++ [109] ++ b) = strip_ansi false b.
Proof.
  intro Hds. cbn [app strip_ansi]. change (27 =? 27) with true. cbn [negb].
  change (91 =? 109) with false. cbn [negb].
  induction Hds as [|d ds Hd _ IH]; [reflexivity|].
  cbn [app strip_ansi]. replace (d =? 109) with false by (symmetry; apply Z.eqb_neq; lia).
  exact IH.
Qed.

Lemma filter_plain (s : jstr) :
  Forall plain_unit s ->
  filter (fun u => negb ((56320 <=? u) && (u <=? 57343))) s = s.
Proof.
  induction 1 as [|u s [_ Hu] _ IH]; [reflexivity|].
  cbn [filter]. replace ((56320 <=? u) && (u <=? 57343)) with false.
  - cbn [negb]. rewrite IH. reflexivity.
  - symmetry. apply andb_false_iff. destruct (Z.leb_spec 56320 u); [right|left; reflexivity].
    apply Z.leb_gt. lia.
Qed.

Lemma visible_width_plain (s : jstr) : Forall plain_unit s -> visible_width s = js_length s.
Proof.
  intro H. unfold visible_width. rewrite <- (app_nil_r s) at 1.
  rewrite strip_plain; [|eapply Forall_impl; [|exact H]; intros u [Hu _]; exact Hu].
  cbn [strip_ansi]. rewrite app_nil_r, filter_plain by exact H. reflexivity.
Qed.

Lemma partial_plain (k : Z) :
  1 <= k <= 7 -> Forall plain_unit (nth (Z.to_nat k) BAR_PARTIAL []).
Proof.
  intro Hk.
  assert (E : (Z.to_nat k = 1 \/ Z.to_nat k = 2 \/ Z.to_nat k = 3 \/ Z.to_nat k = 4 \/
               Z.to_nat k = 5 \/ Z.to_nat k = 6 \/ Z.to_nat k = 7)%nat) by lia.
  destruct E as [E|[E|[E|[E|[E|[E|E]]]]]]; rewrite E; plain_const.
Qed.

Lemma bar_plain (value max width : Z) (s : jstr) :
  0 <= width -> (max = 0 \/ (0 <= value /\ 0 < max)) ->
  bar value max width = Some s -> Forall plain_unit s /\ js_length s = width.
Proof.
  intros Hw Hm Hb.
  assert (Hsp : Forall plain_unit (js " ")) by plain_const.
  assert (Hfull : Forall plain_unit BAR_FULL) by plain_const.
  destruct Hm as [-> | [Hv Hm]].
  - unfold bar in Hb. cbn [Z.eqb] in Hb. rewrite js_repeat_ok in Hb by exact Hw.
    injection Hb as <-. split; [apply Forall_rep; exact Hsp|].
    rewrite rep_length by exact Hw. change (js_length (js " ")) with 1. lia.
  - destruct (bar_general value max width Hv Hm Hw) as [Hfu [Hpi [p [Hp [Hb' Hl]]]]].
    rewrite Hb' in Hb. injection Hb as <-. split; [|exact Hl].
    apply Forall_app. split; [apply Forall_rep; exact Hfull|].
    apply Forall_app. split; [|apply Forall_rep; exact Hsp].
    destruct Hp as [-> | [Hk ->]]; [constructor|].
    apply partial_plain. lia.
Qed.

End RenderProofs.

Module RenderExtras.
Import AsciiViz RenderProofs.

(** [pad] returns exactly [width] code units (for [width >= 0]): a string
    that is too long is cut to its first [width] units; a shorter one is
    kept whole, followed (left alignment) or preceded (right alignment) by
    spaces. *)
Theorem pad_fits (s : jstr) (width : Z) (al : align) :
  0 <= width ->
  js_length (pad s width al) = width /\
  (width <= js_length s -> pad s width al = firstn (Z.to_nat width) s) /\
  (js_length s <= width ->
     exists k, pad s width Left = s ++ repeat 32 k /\ pad s width Right = repeat 32 k ++ s).
Proof.
  intro Hw. rewrite !pad_eq by exact Hw. unfold js_length in *.
  destruct (Z.geb_spec (Z.of_nat (length s)) width) as [Hge|Hlt].
  - split; [rewrite length_firstn; lia|]. split; [intros _; reflexivity|].
    intro Hle. exists O. cbn [repeat]. rewrite app_nil_r.
    replace (Z.to_nat width) with (length s) by lia. rewrite firstn_all. split; reflexivity.
  - split; [destruct al; rewrite length_app, repeat_length; lia|].
    split; [intro; lia|]. intros _. eexists. split; reflexivity.
Qed.

Lemma pad_fits_witness :
  0 <= 3 /\ pad (js "abcdef") 3 Right = js "abc" /\ js_length (pad (js "ab") 4 Right) = 4.
Proof.
  split; [lia|]. split.
  - rewrite (proj1 (proj2 (pad_fits (js "abcdef") 3 Right ltac:(lia)))); [reflexivity|].
    vm_compute. discriminate.
  - exact (proj1 (pad_fits (js "ab") 4 Right ltac:(lia))).
Defined.

(** [hline(width)] is [width] code units long for [width >= 2]: the two
    end pieces and [width - 2] double-line characters. *)
Theorem hline_length (width : Z) (left right : jstr) :
  2 <= width ->
  js_length (hline width left right) = js_length left + (width - 2) + js_length right /\
  js_length (hline width BOX_LT BOX_RT) = width.
Proof.
  intro Hw. unfold hline. rewrite !js_length_app, rep_length by lia.
  change (js_length BOX_H) with 1. change (js_length BOX_LT) with 1.
  change (js_length BOX_RT) with 1. lia.
Qed.

Lemma hline_length_witness : 2 <= 78 /\ js_length (hline 78 BOX_LT BOX_RT) = 78.
Proof. split; [lia|]. exact (proj2 (hline_length 78 BOX_LT BOX_RT ltac:(lia))). Defined.

(** [row(content, width)] is exactly [width] columns wide for
    [width >= 4] and content without escape characters or surrogate
    pairs: the content is cut or padded to [width - 4] columns between the
    two borders. *)
Theorem row_width (content : jstr) (width : Z) :
  4 <= width -> Forall plain_unit content ->
  visible_width (row content width) = width /\ js_length (row content width) = width.
Proof.
  intros Hw Hc.
  assert (Hl : js_length (row content width) = width).
  { unfold row. rewrite !js_length_app.
    rewrite (pad_length_aux content (width - 4) Left ltac:(lia)).
    change (js_length BOX_V) with 1. change (js_length (js " ")) with 1. lia. }
  split; [|exact Hl]. rewrite visible_width_plain; [exact Hl|].
  unfold row. assert (Hv : Forall plain_unit BOX_V) by plain_const.
  assert (Hs : Forall plain_unit (js " ")) by plain_const.
  apply Forall_app; split; [exact Hv|]. apply Forall_app; split; [exact Hs|].
  apply Forall_app; split; [apply pad_forall; [split; lia|exact Hc]|].
  apply Forall_app; split; [exact Hs|exact Hv].
Qed.

Lemma row_width_witness :
  4 <= 78 /\ Forall plain_unit (js "hello") /\ visible_width (row (js "hello") 78) = 78.
Proof.
  assert (H : Forall plain_unit (js "hello")) by plain_const.
  split; [lia|]. split; [exact H|]. exact (proj1 (row_width (js "hello") 78 ltac:(lia) H)).
Defined.

(** [colorBar] wraps the bar in a color code and [RESET]: for a color of
    the form ESC [ digits m, the result takes exactly [width] visible
    columns (for [max = 0], or [value >= 0] and [max > 0]), while its code
    unit length exceeds [width] by the length of the two escape codes. *)
Theorem colorBar_visible_width (value max width : Z) (ds : jstr) :
  0 <= width -> (max = 0 \/ (0 <= value /\ 0 < max)) -> Forall (fun d => 48 <= d <= 57) ds ->
  exists s, colorBar value max width (ESC ++ js "[" ++ ds ++ js "m") = Some s /\
            visible_width s = width /\ js_length s = width + js_length ds + 7.
Proof.
  intros Hw Hm Hds.
  assert (Hb : exists b, bar value max width = Some b).
  { destruct Hm as [-> | [Hv Hm]].
    - eexists. unfold bar. cbn [Z.eqb]. apply js_repeat_ok. exact Hw.
    - destruct (bar_general value max width Hv Hm Hw) as [_ [_ [p [_ [Hb _]]]]]. eauto. }
  destruct Hb as [b Hb]. destruct (bar_plain value max width b Hw Hm Hb) as [Hp Hl].
  exists (ESC ++ js "[" ++ ds ++ js "m" ++ b ++ RESET). split.
  - unfold colorBar. rewrite Hb. cbn [obind]. rewrite <- !app_assoc. reflexivity.
  - split.
    + unfold visible_width.
      change (ESC ++ js "[" ++ ds ++ js "m" ++ b ++ RESET)
        with ([27; 91] ++ ds ++ [109] ++ b ++ RESET).
      rewrite strip_sgr by exact Hds.
      rewrite strip_plain by (eapply Forall_impl; [|exact Hp]; intros u [Hu _]; exact Hu).
      change (strip_ansi false RESET) with (@nil Z). rewrite app_nil_r, filter_plain by exact Hp.
      exact Hl.
    + rewrite !js_length_app, Hl. change (js_length ESC) with 1.
      change (js_length (js "[")) with 1. change (js_length (js "m")) with 1.
      change (js_length RESET) with 4. lia.
Qed.

Lemma colorBar_visible_width_witness :
  exists s, colorBar 33 100 10 BRIGHT_RED = Some s /\ visible_width s = 10.
Proof.
  destruct (colorBar_visible_width 33 100 10 [57; 49] ltac:(lia) ltac:(right; lia)
              ltac:(repeat constructor; lia)) as [s [Hs [Hv _]]].
  exists s. split; [exact Hs|exact Hv].
Defined.

End RenderExtras.

Module ChartProofs.
Import AsciiViz RenderProofs.

Lemma nl_check (s : jstr) : forallb (fun u => negb (u =? 10)) s = true -> no_nl s.
Proof.
  intro H. apply Forall_forall. intros u Hu. rewrite forallb_forall in H.
  specialize (H u Hu). apply negb_true_iff, Z.eqb_neq in H. exact H.
Qed.

Ltac nl_const := apply nl_check; vm_compute; reflexivity.

Lemma no_nl_app (a b : jstr) : no_nl a -> no_nl b -> no_nl (a ++ b).
Proof. intros Ha Hb. apply Forall_app. split; assumption. Qed.

Lemma nat_digits_no_nl (n : Z) : no_nl (nat_digits n).
Proof.
  eapply Forall_impl; [|apply nat_digits_all]. unfold is_digit. intros a Ha. lia.
Qed.

Lemma z_to_string_no_nl (n : Z) : no_nl (z_to_string n).
Proof.
  unfold z_to_string. destruct (n <? 0); [apply no_nl_app; [nl_const|]|]; apply nat_digits_no_nl.
Qed.

Lemma to_fixed_no_nl (x : Q) (k : nat) : no_nl (to_fixed x k).
Proof.
  unfold to_fixed. cbv zeta.
  set (d' := repeat 48 _ ++ nat_digits _).
  assert (Hd : no_nl d').
  { apply no_nl_app; [apply Forall_repeat'; lia|apply nat_digits_no_nl]. }
  assert (Hb : no_nl (match k with
                      | O => d'
                      | S _ => firstn (length d' - k) d' ++ js "." ++ skipn (length d' - k) d'
                      end)).
  { destruct k; [exact Hd|].
    apply no_nl_app; [apply Forall_firstn'; exact Hd|].
    apply no_nl_app; [nl_const|apply Forall_skipn'; exact Hd]. }
  destruct (negb (Qle_bool 0 x)); [apply no_nl_app; [nl_const|exact Hb]|exact Hb].
Qed.

Lemma group3_forall (P : Z -> Prop) (l : list Z) :
  P 44 -> Forall P l -> Forall P (group3_rev l).
Proof.
  intro H44. remember (length l) as n eqn:Hn. assert (Hle : (length l <= n)%nat) by lia.
  clear Hn. revert l Hle. induction n as [|n IH]; intros l Hle Hl.
  - destruct l; [constructor|cbn in Hle; lia].
  - destruct l as [|a [|b [|c [|d r]]]]; try exact Hl.
    change (group3_rev (a :: b :: c :: d :: r)) with (a :: b :: c :: 44 :: group3_rev (d :: r)).
    inversion Hl as [|? ? Ha Hl1]; subst.
    inversion Hl1 as [|? ? Hb Hl2]; subst. inversion Hl2 as [|? ? Hc Hl3]; subst.
    repeat (apply Forall_cons; [assumption|]).
    apply IH; [cbn [length] in Hle |- *; lia|exact Hl3].
Qed.

Lemma to_locale_string_no_nl (n : Z) : no_nl (to_locale_string n).
Proof.
  unfold to_locale_string. cbv zeta.
  assert (H : no_nl (rev (group3_rev (rev (nat_digits (Z.abs n)))))).
  { apply Forall_rev, group3_forall; [lia|]. apply Forall_rev, nat_digits_no_nl. }
  destruct (n <? 0); [apply no_nl_app; [nl_const|exact H]|exact H].
Qed.

Lemma formatNumber_no_nl (n : Z) : no_nl (formatNumber n).
Proof.
  unfold formatNumber.
  destruct (n >=? 1000000); [apply no_nl_app; [apply to_fixed_no_nl|nl_const]|].
  destruct (n >=? 10000); [apply no_nl_app; [apply to_fixed_no_nl|nl_const]|].
  destruct (n >=? 1000); [apply to_locale_string_no_nl|apply z_to_string_no_nl].
Qed.

Lemma percent_fixed0_no_nl (a b : Z) : no_nl (percent_fixed0 a b).
Proof.
  unfold percent_fixed0. destruct (b =? 0); [|apply to_fixed_no_nl].
  destruct (a >? 0); [nl_const|]. destruct (a <? 0); nl_const.
Qed.

Lemma pad_no_nl (s : jstr) (w : Z) (al : align) : no_nl s -> no_nl (pad s w al).
Proof. intro H. apply pad_forall; [lia|exact H]. Qed.

Lemma rep_no_nl (s : jstr) (n : Z) : no_nl s -> no_nl (rep s n).
Proof. apply Forall_rep. Qed.

Lemma nth_partial_no_nl (n : nat) : no_nl (nth n BAR_PARTIAL []).
Proof.
  destruct n as [|[|[|[|[|[|[|[|n]]]]]]]]; try nl_const.
  cbn. destruct n; constructor.
Qed.

Lemma bar_no_nl (v m w : Z) (b : jstr) : bar v m w = Some b -> no_nl b.
Proof.
  unfold bar. destruct (m =? 0).
  - unfold js_repeat. destruct (w <? 0); [discriminate|]. intro H. injection H as <-.
    apply (rep_no_nl (js " ") w). nl_const.
  - cbv zeta. unfold js_repeat at 1. destruct (_ <? 0); [discriminate|]. cbn [obind].
    intro H. injection H as <-. apply pad_no_nl.
    assert (Hf : forall n, no_nl (concat (repeat BAR_FULL n))).
    { intro n. induction n as [|n IH]; [constructor|].
      cbn [repeat concat]. apply no_nl_app; [nl_const|exact IH]. }
    destruct (_ && _); [apply no_nl_app; [apply Hf|apply nth_partial_no_nl]|apply Hf].
Qed.

Lemma colorBar_no_nl (v m w : Z) (c b : jstr) :
  no_nl c -> colorBar v m w c = Some b -> no_nl b.
Proof.
  intros Hc H. unfold colorBar in H. destruct (bar v m w) as [x|] eqn:E; [|discriminate].
  cbn [obind] in H. injection H as <-.
  apply no_nl_app; [exact Hc|]. apply no_nl_app; [exact (bar_no_nl _ _ _ _ E)|nl_const].
Qed.

Lemma vline_no_nl (s : jstr) : no_nl s -> no_nl (vline s).
Proof.
  intro H. unfold vline. apply no_nl_app; [nl_const|]. apply no_nl_app; [nl_const|].
  apply no_nl_app; [nl_const|]. apply no_nl_app; [exact H|nl_const].
Qed.

Lemma omap_length {A B} (f : A -> option B) (l : list A) (ys : list B) :
  omap f l = Some ys -> length ys = length l.
Proof.
  revert ys. induction l as [|x l IH]; intros ys H; cbn [omap] in H.
  - injection H as <-. reflexivity.
  - destruct (f x) as [y|]; [|discriminate]. cbn [obind] in H.
    destruct (omap f l) as [zs|]; [|discriminate]. cbn [obind] in H. injection H as <-.
    cbn [length]. rewrite (IH zs eq_refl). reflexivity.
Qed.

Lemma omap_forall {A B} (f : A -> option B) (l : list A) (ys : list B) (P : B -> Prop) :
  (forall x y, In x l -> f x = Some y -> P y) -> omap f l = Some ys -> Forall P ys.
Proof.
  revert ys. induction l as [|x l IH]; intros ys Hf H; cbn [omap] in H.
  - injection H as <-. constructor.
  - destruct (f x) as [y|] eqn:E; [|discriminate]. cbn [obind] in H.
    destruct (omap f l) as [zs|]; [|discriminate]. cbn [obind] in H. injection H as <-.
    constructor; [exact (Hf x y (or_introl eq_refl) E)|].
    apply IH; [intros x' y' Hx; apply Hf; right; exact Hx|reflexivity].
Qed.

Lemma omap_none {A B} (f : A -> option B) (l : list A) (x : A) :
  In x l -> f x = None -> omap f l = None.
Proof.
  intros Hin Hn. induction l as [|a l IH]; [destruct Hin|].
  cbn [omap]. destruct Hin as [<-|Hin].
  - rewrite Hn. reflexivity.
  - destruct (f a); [|reflexivity]. cbn [obind]. rewrite (IH Hin). reflexivity.
Qed.

Lemma split_aux_plain (x cur r : jstr) :
  no_nl x -> split_lines_aux cur (x ++ r) = split_lines_aux (rev x ++ cur) r.
Proof.
  intro H. revert cur. induction H as [|u x Hu _ IH]; intro cur; [reflexivity|].
  cbn [app split_lines_aux]. replace (u =? 10) with false by (symmetry; apply Z.eqb_neq; exact Hu).
  rewrite IH. cbn [rev]. rewrite <- app_assoc. reflexivity.
Qed.

Lemma split_join (L : list jstr) :
  L <> [] -> Forall no_nl L -> split_lines (join [10] L) = L.
Proof.
  unfold split_lines. induction L as [|x L IH]; intros Hne HL; [contradiction|].
  inversion HL as [|? ? Hx HL']; subst.
  destruct L as [|y L].
  - cbn [join]. rewrite <- (app_nil_r x) at 1. rewrite split_aux_plain by exact Hx.
    cbn [split_lines_aux]. rewrite app_nil_r, rev_involutive. reflexivity.
  - change (join [10] (x :: y :: L)) with (x ++ [10] ++ join [10] (y :: L)).
    rewrite split_aux_plain by exact Hx. cbn [app split_lines_aux Z.eqb].
    rewrite app_nil_r, rev_involutive, IH by (discriminate || exact HL'). reflexivity.
Qed.

(** Builds a [no_nl] goal structurally from its pieces. *)
Ltac nl_build tac :=
  unfold no_nl in *;
  repeat first
    [ apply Forall_app; split
    | apply Forall_cons; [lia|]
    | apply Forall_nil
    | apply pad_no_nl
    | apply formatNumber_no_nl
    | apply percent_fixed0_no_nl
    | tac
    | assumption
    | nl_const ].

Lemma chart_row_no_nl (mx : Z) (total : option Z) (c : jstr) (item : ChartItem) (y : jstr) :
  no_nl c -> no_nl (i_label item) -> chart_row mx total c item = Some y -> no_nl y.
Proof.
  intros Hc Hl H. unfold chart_row in H.
  destruct (colorBar (i_value item) mx 30 c) as [b|] eqn:E; [|discriminate].
  cbv beta iota zeta delta [obind] in H. injection H as <-. apply vline_no_nl.
  pose proof (colorBar_no_nl _ _ _ _ _ Hc E) as Hb.
  destruct total as [t|]; [destruct (t =? 0)|]; nl_build fail.
Qed.

End ChartProofs.
